(** * duna-draw-api: a shallow embedding of [main.py]

    The program is a small HTTP service in front of the pyfiglet rendering
    library.  This development embeds the request model [FigletRequest], the
    helper [justify_text] and the three handlers [generate_ascii],
    [list_fonts] and [random_art], and states the properties of the
    specification over them.

    Conventions.
    - A Python [str] is a [string], one [ascii] for each character (a code
      point below 256); its length is [String.length].  Python integers
      are unbounded, so a width is a [Z]; lengths are [nat].
    - [str.split], [str.join], [str.ljust], [str.rjust] and [str.center] are
      Python built-ins; they are written out below after CPython
      (Objects/unicodeobject.c), with the default fill character, a space.
      The three padding methods take their width as a C [Py_ssize_t], of 64
      bits here: a width outside its range raises [OverflowError] before
      the string is looked at.  Exhaustion of memory is not modelled: a
      string of any length can be built.
    - pyfiglet ([FigletFont.getFonts], [pyfiglet.figlet_format]) is a third
      party library: the handlers are parameterised by it.
    - Exceptions are values of [exn]; a handler is a computation over a
      [world] that records the calls made to the rendering library and the
      position in the random source. *)

From Stdlib Require Import String Ascii List ZArith Lia Bool DecimalString.
Import ListNotations.

Open Scope string_scope.
Open Scope Z_scope.

(** ** Exceptions and results *)

(** The exceptions the program meets.  [HTTPException] is nexios's, a
    subclass of [Exception]; [ValidationError] is pydantic's and names the
    offending fields; [TypeError], [IndexError] and [OverflowError] are
    raised by Python built-ins; [LibraryError] stands for whatever pyfiglet
    raises. *)
Inductive exn : Type :=
| HTTPException (status_code : Z) (detail : string)
| ValidationError (fields : list string)
| TypeError (detail : string)
| IndexError (detail : string)
| OverflowError (detail : string)
| LibraryError (detail : string).

Inductive result (A : Type) : Type :=
| Ok (a : A)
| Raise (e : exn).
Arguments Ok {A} a.
Arguments Raise {A} e.

(** ** Python string built-ins *)

Module PyStr.

Definition newline : ascii := "010"%char.
Definition space : ascii := " "%char.

(** [len(s)] as a Python integer. *)
Definition len (s : string) : Z := Z.of_nat (String.length s).

(** The range of a C [Py_ssize_t]. *)
Definition PY_SSIZE_T_MAX : Z := 2 ^ 63 - 1.
Definition PY_SSIZE_T_MIN : Z := - 2 ^ 63.

(** Whether a Python integer converts to a [Py_ssize_t]. *)
Definition fits_ssize_t (n : Z) : bool :=
  (PY_SSIZE_T_MIN <=? n) && (n <=? PY_SSIZE_T_MAX).

(** What the conversion of an integer argument raises when it does not. *)
Definition ssize_t_overflow : exn :=
  OverflowError "Python int too large to convert to C ssize_t".

(** [n] copies of the fill character. *)
Fixpoint spaces (n : nat) : string :=
  match n with
  | O => EmptyString
  | S k => String space (spaces k)
  end.

(** CPython's [pad(self, left, right, fill)]. *)
Definition pad (s : string) (left right : Z) : string :=
  spaces (Z.to_nat left) ++ s ++ spaces (Z.to_nat right).

(** [unicode_ljust_impl]: unchanged when [len(s) >= width], otherwise
    [pad(self, 0, width - len, ' ')]. *)
Definition ljust_impl (s : string) (width : Z) : string :=
  if len s >=? width then s else pad s 0 (width - len s).

(** [unicode_rjust_impl]: unchanged when [len(s) >= width], otherwise
    [pad(self, width - len, 0, ' ')]. *)
Definition rjust_impl (s : string) (width : Z) : string :=
  if len s >=? width then s else pad s (width - len s) 0.

(** [unicode_center_impl]:
    [marg = width - len; left = marg / 2 + (marg & width & 1);
     pad(self, left, marg - left, ' ')]. *)
Definition center_left (s : string) (width : Z) : Z :=
  let marg := width - len s in
  marg / 2 + Z.land (Z.land marg width) 1.

Definition center_impl (s : string) (width : Z) : string :=
  if len s >=? width then s
  else
    let marg := width - len s in
    let left := center_left s width in
    pad s left (marg - left).

(** A method whose [width] argument is parsed as a [Py_ssize_t] and then
    handed to its implementation. *)
Definition with_ssize_t (impl : string -> Z -> string) (s : string)
           (width : Z) : result string :=
  if fits_ssize_t width then Ok (impl s width) else Raise ssize_t_overflow.

(** [s.ljust(width)], [s.rjust(width)] and [s.center(width)]. *)
Definition ljust : string -> Z -> result string := with_ssize_t ljust_impl.
Definition rjust : string -> Z -> result string := with_ssize_t rjust_impl.
Definition center : string -> Z -> result string := with_ssize_t center_impl.

(** [s.split('\n')]: the pieces between line breaks; never empty. *)
Fixpoint split (s : string) : list string :=
  match s with
  | EmptyString => [EmptyString]
  | String c rest =>
      if Ascii.eqb c newline then EmptyString :: split rest
      else
        match split rest with
        | [] => [String c EmptyString]
        | piece :: pieces => String c piece :: pieces
        end
  end.

(** ['\n'.join(pieces)]. *)
Definition join (pieces : list string) : string :=
  String.concat (String newline EmptyString) pieces.

(** A string without a line break: one row of output. *)
Fixpoint no_newline (s : string) : bool :=
  match s with
  | EmptyString => true
  | String c rest => negb (Ascii.eqb c newline) && no_newline rest
  end.

End PyStr.

(** ** Helper functions of [main.py] *)

(** The body of the loop of [justify_text], for one [line]: the call of
    the padding method the alignment selects. *)
Definition justify_line (width : Z) (alignment : string) (line : string)
  : result string :=
  if String.eqb alignment "center" then PyStr.center line width
  else if String.eqb alignment "right" then PyStr.rjust line width
  else PyStr.ljust line width.

(** The loop of [justify_text]: the lines are justified in order and
    appended to [justified]; the first exception ends the loop. *)
Fixpoint justify_lines (width : Z) (alignment : string)
         (lines : list string) : result (list string) :=
  match lines with
  | [] => Ok []
  | line :: rest =>
      match justify_line width alignment line with
      | Raise e => Raise e
      | Ok padded =>
          match justify_lines width alignment rest with
          | Raise e => Raise e
          | Ok justified => Ok (padded :: justified)
          end
      end
  end.

(** [justify_text(text, width, alignment)]. *)
Definition justify_text (text : string) (width : Z) (alignment : string)
  : result string :=
  let lines := PyStr.split text in
  match justify_lines width alignment lines with
  | Raise e => Raise e
  | Ok justified => Ok (PyStr.join justified)
  end.

(** The row [justify_line] returns when the width fits a [Py_ssize_t]:
    the implementation of the selected method, past the conversion. *)
Definition justified_line (width : Z) (alignment : string) (line : string)
  : string :=
  if String.eqb alignment "center" then PyStr.center_impl line width
  else if String.eqb alignment "right" then PyStr.rjust_impl line width
  else PyStr.ljust_impl line width.

(** The text [justify_text] returns when the width fits a [Py_ssize_t]. *)
Definition justified_text (text : string) (width : Z) (alignment : string)
  : string :=
  PyStr.join (map (justified_line width alignment) (PyStr.split text)).
(** ** The handlers' monad *)

(** The [width] keyword of [figlet_format]: left out of the call, or passed
    with the value of an [Optional[int]]. *)
Inductive width_kw : Type :=
| NoWidth
| Width (w : option Z).

(** One call [pyfiglet.figlet_format(text, font=font, width=width)]. *)
Record call : Type := Call {
  call_text : string;
  call_font : string;
  call_width : width_kw
}.

(** What a handler can observe and change: the calls made to the rendering
    library so far (latest last) and how many random draws were taken. *)
Record world : Type := World {
  calls : list call;
  drawn : nat
}.

Definition initial : world := {| calls := []; drawn := 0%nat |}.

(** The world after one more call to the library. *)
Definition after_call (w : world) (c : call) : world :=
  {| calls := calls w ++ [c]; drawn := drawn w |}.

(** The world after one more random draw. *)
Definition after_draw (w : world) : world :=
  {| calls := calls w; drawn := S (drawn w) |}.

Definition M (A : Type) : Type := world -> result A * world.

Definition ret {A} (a : A) : M A := fun w => (Ok a, w).

Definition raise {A} (e : exn) : M A := fun w => (Raise e, w).

Definition bind {A B} (m : M A) (k : A -> M B) : M B :=
  fun w =>
    match m w with
    | (Ok a, w') => k a w'
    | (Raise e, w') => (Raise e, w')
    end.

(** [try: m except Exception as e: h e]. *)
Definition try_except {A} (m : M A) (h : exn -> M A) : M A :=
  fun w =>
    match m w with
    | (Ok a, w') => (Ok a, w')
    | (Raise e, w') => h e w'
    end.

Definition lift {A} (r : result A) : M A := fun w => (r, w).

Declare Scope handler_scope.
Delimit Scope handler_scope with handler.
Notation "x <- m ;; k" := (bind m (fun x => k))
  (at level 61, m at next level, right associativity) : handler_scope.

(** ** Pydantic models *)

(** One entry of the JSON body as pydantic sees it for a field of type [A]:
    the key is absent, its value is [null], its value is (or is coerced by
    pydantic to) an [A], or its value cannot be taken as an [A]. *)
Inductive field (A : Type) : Type :=
| Missing
| Null
| Value (a : A)
| Invalid.
Arguments Missing {A}.
Arguments Null {A}.
Arguments Value {A} a.
Arguments Invalid {A}.

(** The parsed JSON object [body]; other keys are ignored by the model. *)
Record body : Type := Body {
  body_text : field string;
  body_font : field string;
  body_width : field Z;
  body_justify : field string
}.

Record FigletRequest : Type := {
  text : string;
  font : string;
  width : option Z;
  justify : option string
}.

(** [name: A], no default: the key must carry a value. *)
Definition required {A} (f : field A) : option A :=
  match f with
  | Value a => Some a
  | _ => None
  end.

(** [name: A = d]. *)
Definition with_default {A} (d : A) (f : field A) : option A :=
  match f with
  | Missing => Some d
  | Value a => Some a
  | _ => None
  end.

(** [name: Optional[A] = d]. *)
Definition optional {A} (d : A) (f : field A) : option (option A) :=
  match f with
  | Missing => Some (Some d)
  | Null => Some None
  | Value a => Some (Some a)
  | Invalid => None
  end.

Definition failed {A} (name : string) (checked : option A) : list string :=
  match checked with
  | Some _ => []
  | None => [name]
  end.

(** Construction of a [FigletRequest] from the keys of [body]: every
    field is checked, and a
    [ValidationError] lists all that failed. *)
Definition FigletRequest_init (b : body) : result FigletRequest :=
  let t := required (body_text b) in
  let f := with_default "standard" (body_font b) in
  let w := optional 80 (body_width b) in
  let j := optional "center" (body_justify b) in
  match t, f, w, j with
  | Some t, Some f, Some w, Some j =>
      Ok {| text := t; font := f; width := w; justify := j |}
  | _, _, _, _ =>
      Raise (ValidationError
               (failed "text" t ++ failed "font" f
                ++ failed "width" w ++ failed "justify" j))
  end.

(** The metadata mapping of a response: the one built by [generate_ascii]
    or the one built by [random_art]. *)
Inductive Metadata : Type :=
| RenderMetadata (original_text : string) (width : option Z)
                 (alignment : option string) (line_count : nat)
| NoteMetadata (note : string).

Record FigletResponse : Type := {
  ascii_art : string;
  font_used : string;
  metadata : Metadata
}.

Record FontListResponse : Type := {
  fonts : list string;
  count : nat
}.


(** The output rows of a response: the lines of its [ascii_art]. *)
Definition rows (r : FigletResponse) : list string :=
  PyStr.split (ascii_art r).

(** ** The rendering library *)

(** pyfiglet as the handlers use it: the font catalog and the renderer,
    which returns the art or raises. *)
Class Pyfiglet : Type := {
  getFonts : list string;
  figlet_format : string -> string -> width_kw -> result string
}.

(** ** Formatting of the error detail *)

Definition py_str_nat (n : nat) : string :=
  NilEmpty.string_of_uint (Nat.to_uint n).

(** [str(n)] of a Python integer. *)
Definition py_str_int (n : Z) : string :=
  NilZero.string_of_int (Z.to_int n).

Definition single_quote : ascii := "039"%char.
Definition double_quote : ascii := "034"%char.
Definition backslash : ascii := "092"%char.

(** [c in s]. *)
Fixpoint contains (c : ascii) (s : string) : bool :=
  match s with
  | EmptyString => false
  | String x rest => Ascii.eqb x c || contains c rest
  end.

Definition hex_digit (n : nat) : ascii :=
  nth n ["0"; "1"; "2"; "3"; "4"; "5"; "6"; "7"; "8"; "9";
         "a"; "b"; "c"; "d"; "e"; "f"]%char "0"%char.

(** Whether [repr] writes a code point below 256 as it is: the printable
    ones, which leaves out the control characters, the no-break space and
    the soft hyphen. *)
Definition py_printable (n : nat) : bool :=
  negb ((n <? 32) || ((127 <=? n) && (n <=? 160)) || (n =? 173))%nat.

(** One character of [repr(s)], within the quotes [quote]. *)
Definition py_repr_char (quote : ascii) (c : ascii) : string :=
  let n := nat_of_ascii c in
  if Ascii.eqb c quote || Ascii.eqb c backslash then
    String backslash (String c EmptyString)
  else if (n =? 9)%nat then String backslash "t"
  else if (n =? 10)%nat then String backslash "n"
  else if (n =? 13)%nat then String backslash "r"
  else if py_printable n then String c EmptyString
  else
    String backslash
      (String "x" (String (hex_digit (n / 16)) (String (hex_digit (n mod 16))
                                                      EmptyString))).

Fixpoint py_repr_chars (quote : ascii) (s : string) : string :=
  match s with
  | EmptyString => EmptyString
  | String c rest => py_repr_char quote c ++ py_repr_chars quote rest
  end.

(** [repr(s)]: single quotes, or double quotes when the string has a
    single quote and no double quote in it; the quote in use, the
    backslash and the characters that do not print are escaped. *)
Definition py_repr_str (s : string) : string :=
  let quote :=
    if contains single_quote s && negb (contains double_quote s)
    then double_quote else single_quote in
  String quote (py_repr_chars quote s ++ String quote EmptyString).

(** [repr] of a list of strings. *)
Definition py_repr_list (l : list string) : string :=
  "[" ++ String.concat ", " (map py_repr_str l) ++ "]".

Definition font_not_found_detail (available_fonts : list string) : string :=
  "Font not found. Available fonts: "
  ++ py_repr_list (firstn 5 available_fonts)
  ++ "... (" ++ py_str_nat (length available_fonts) ++ " total)".

(** ** Routes *)

Section Routes.

Context {lib : Pyfiglet}.

(** [str(e)], as the exception classes define it. *)
Variable str_of_exn : exn -> string.

(** The random source: the [n]-th raw draw of the generator. *)
Variable random_source : nat -> nat.

Local Open Scope handler_scope.

(** The call to the library, recorded in the world. *)
Definition call_figlet_format (text font : string) (width : width_kw)
  : M string :=
  fun w =>
    (figlet_format text font width, after_call w (Call text font width)).

(** [justify_text(ascii_art, req.width, req.justify)] on the values of the
    two [Optional] fields.  [str.split] never returns an empty list, so the
    loop runs and [None] as a width makes [center], [rjust] or [ljust]
    raise [TypeError]; [None] as an alignment equals neither literal and
    takes the last branch, as any other unrecognised value. *)
Definition justify_text_opt (ascii_art : string) (width : option Z)
           (alignment : option string) : result string :=
  match width with
  | None => Raise (TypeError "'NoneType' object cannot be interpreted as an integer")
  | Some w =>
      match alignment with
      | Some a => justify_text ascii_art w a
      | None => justify_text ascii_art w "left"
      end
  end.

(** [req.font not in available_fonts]. *)
Definition font_known (name : string) (available_fonts : list string)
  : bool :=
  existsb (String.eqb name) available_fonts.

Definition generate_ascii (b : body) : M FigletResponse :=
  try_except
    (req <- lift (FigletRequest_init b) ;;
     let available_fonts := getFonts in
     if negb (font_known (font req) available_fonts) then
       raise (HTTPException 400 (font_not_found_detail available_fonts))
     else
       ascii_art <- call_figlet_format (text req) (font req)
                                       (Width (width req)) ;;
       ascii_art <- lift (justify_text_opt ascii_art (width req)
                                           (justify req)) ;;
       ret {| ascii_art := ascii_art;
              font_used := font req;
              metadata :=
                RenderMetadata (text req) (width req) (justify req)
                               (length (PyStr.split ascii_art)) |})
    (fun e => raise (HTTPException 500 (str_of_exn e))).

Definition list_fonts : M FontListResponse :=
  let fonts := getFonts in
  ret {| fonts := fonts; count := length fonts |}.

(** [random.choice(seq)]: [IndexError] on an empty sequence, otherwise
    the element at an index below [len(seq)] taken from the next draw. *)
Definition choice {A} (seq : list A) : M A :=
  fun w =>
    match seq with
    | [] => (Raise (IndexError "Cannot choose from an empty sequence"), w)
    | x :: _ =>
        (Ok (nth (random_source (drawn w) mod length seq)%nat seq x),
         after_draw w)
    end.

Definition sample_texts : list string :=
  ["Hello World"; "ASCII Rocks"; "PyFiglet"; "Nexios"; "Make Art"].

(** The values of the response mapping are evaluated in the order they
    are written: the phrase, the font of the call, the call, then the
    font reported. *)
Definition random_art : M FigletResponse :=
  let fonts := getFonts in
  phrase <- choice sample_texts ;;
  render_font <- choice fonts ;;
  ascii_art <- call_figlet_format phrase render_font NoWidth ;;
  reported_font <- choice fonts ;;
  ret {| ascii_art := ascii_art;
         font_used := reported_font;
         metadata := NoteMetadata "Randomly generated" |}.

End Routes.

(** ** A small stand-in for the rendering library

    Three fonts whose glyphs are one row high and two cells wide: a
    character is drawn twice.  As pyfiglet does, the renderer ends every
    composed row with a line break, returns the empty art for the empty
    text and raises when the width cannot hold a single glyph. *)

Module Demo.

Fixpoint compose (text : string) : string :=
  match text with
  | EmptyString => EmptyString
  | String c rest => String c (String c (compose rest))
  end.

Definition glyph_width : Z := 2.

Definition format (text font : string) (width : width_kw)
  : result string :=
  match text with
  | EmptyString => Ok EmptyString
  | _ =>
      match width with
      | NoWidth => Ok (compose text ++ String PyStr.newline EmptyString)
      | Width None =>
          Raise (TypeError "'<' not supported between 'NoneType' and 'int'")
      | Width (Some w) =>
          if w <? glyph_width then
            Raise (LibraryError "Width is not enough to print this character")
          else Ok (compose text ++ String PyStr.newline EmptyString)
      end
  end.

#[local] Instance lib : Pyfiglet := {
  getFonts := ["standard"; "banner"; "slant"];
  figlet_format := format
}.

(** [str(e)]: nexios writes an [HTTPException] as its status and its
    detail, the other exceptions give their message. *)
Definition str (e : exn) : string :=
  match e with
  | HTTPException status_code detail =>
      "HTTP " ++ py_str_int status_code ++ ": " ++ detail
  | ValidationError fields => String.concat ", " fields
  | TypeError detail => detail
  | IndexError detail => detail
  | OverflowError detail => detail
  | LibraryError detail => detail
  end.

(** A random source whose [n]-th draw is [n]. *)
Definition counting (n : nat) : nat := n.

End Demo.

(** * Properties *)

(** ** Strings *)

Module PyStrFacts.
Import PyStr.

Lemma length_app (s t : string) :
  String.length (s ++ t) = (String.length s + String.length t)%nat.
Proof.
  induction s as [|c s IH]; simpl; [reflexivity | now rewrite IH].
Qed.

Lemma length_spaces (n : nat) : String.length (spaces n) = n.
Proof. induction n; simpl; congruence. Qed.


Lemma len_pad (s : string) (l r : Z) :
  0 <= l -> 0 <= r -> len (pad s l r) = l + len s + r.
Proof.
  intros Hl Hr. unfold len, pad.
  rewrite !length_app, !length_spaces. lia.
Qed.

(** [x & 1] is the parity bit of [x]. *)
Lemma land_1 (x : Z) : Z.land x 1 = Z.b2z (Z.odd x).
Proof.
  change 1 with (Z.ones 1) at 1.
  rewrite Z.land_ones by lia.
  rewrite <- Z.bit0_odd. symmetry. apply Z.bit0_mod.
Qed.

Lemma b2z_odd (x : Z) : Z.b2z (Z.odd x) = x mod 2.
Proof. rewrite <- Z.bit0_odd. apply Z.bit0_mod. Qed.

Lemma land_land_1 (m w : Z) :
  Z.land (Z.land m w) 1 = Z.b2z (Z.odd m && Z.odd w).
Proof.
  rewrite land_1. f_equal.
  rewrite <- !Z.bit0_odd. apply Z.land_spec.
Qed.

(** The left padding of [center]: half the margin, plus the odd cell
    when margin and width are both odd. *)
Lemma center_left_bounds (s : string) (width : Z) :
  len s < width ->
  0 <= center_left s width <= width - len s.
Proof.
  intros H. unfold center_left. cbv zeta.
  rewrite land_land_1.
  pose proof (Z.div_mod (width - len s) 2 ltac:(lia)) as D.
  pose proof (Z.mod_pos_bound (width - len s) 2 ltac:(lia)) as B.
  pose proof (b2z_odd (width - len s)) as Em.
  destruct (Z.odd (width - len s)); destruct (Z.odd width);
    simpl in Em |- *; lia.
Qed.

Lemma Zge_spec (a b : Z) : (a >=? b) = true <-> b <= a.
Proof. rewrite Z.geb_leb. apply Z.leb_le. Qed.

Lemma Zge_false (a b : Z) : (a >=? b) = false <-> a < b.
Proof. rewrite Z.geb_leb. apply Z.leb_gt. Qed.

Lemma len_ljust (s : string) (width : Z) :
  len (ljust_impl s width) = Z.max width (len s).
Proof.
  unfold ljust_impl. destruct (len s >=? width) eqn:E.
  - apply Zge_spec in E. lia.
  - apply Zge_false in E. rewrite len_pad; lia.
Qed.

Lemma len_rjust (s : string) (width : Z) :
  len (rjust_impl s width) = Z.max width (len s).
Proof.
  unfold rjust_impl. destruct (len s >=? width) eqn:E.
  - apply Zge_spec in E. lia.
  - apply Zge_false in E. rewrite len_pad; lia.
Qed.

Lemma len_center (s : string) (width : Z) :
  len (center_impl s width) = Z.max width (len s).
Proof.
  unfold center_impl. destruct (len s >=? width) eqn:E.
  - apply Zge_spec in E. lia.
  - apply Zge_false in E. cbv zeta.
    pose proof (center_left_bounds s width E).
    rewrite len_pad; lia.
Qed.

(** A row that already fills the width is returned as it is. *)
Lemma ljust_wide (s : string) (width : Z) :
  width <= len s -> ljust_impl s width = s.
Proof. intros H. unfold ljust_impl. apply Zge_spec in H. now rewrite H. Qed.

Lemma rjust_wide (s : string) (width : Z) :
  width <= len s -> rjust_impl s width = s.
Proof. intros H. unfold rjust_impl. apply Zge_spec in H. now rewrite H. Qed.

Lemma center_wide (s : string) (width : Z) :
  width <= len s -> center_impl s width = s.
Proof. intros H. unfold center_impl. apply Zge_spec in H. now rewrite H. Qed.

(** Line breaks: padding adds none. *)
Lemma no_newline_app (s t : string) :
  no_newline (s ++ t) = no_newline s && no_newline t.
Proof.
  induction s as [|c s IH]; simpl; [reflexivity|].
  rewrite IH. now rewrite andb_assoc.
Qed.

Lemma no_newline_spaces (n : nat) : no_newline (spaces n) = true.
Proof. induction n; simpl; auto. Qed.

Lemma no_newline_pad (s : string) (l r : Z) :
  no_newline (pad s l r) = no_newline s.
Proof.
  unfold pad. rewrite !no_newline_app, !no_newline_spaces.
  simpl. now rewrite andb_true_r.
Qed.

Lemma no_newline_ljust (s : string) (width : Z) :
  no_newline (ljust_impl s width) = no_newline s.
Proof.
  unfold ljust_impl. destruct (len s >=? width); auto using no_newline_pad.
Qed.

Lemma no_newline_rjust (s : string) (width : Z) :
  no_newline (rjust_impl s width) = no_newline s.
Proof.
  unfold rjust_impl. destruct (len s >=? width); auto using no_newline_pad.
Qed.

Lemma no_newline_center (s : string) (width : Z) :
  no_newline (center_impl s width) = no_newline s.
Proof.
  unfold center_impl. destruct (len s >=? width); auto using no_newline_pad.
Qed.

(** [split] and [join]. *)
Lemma split_nonempty (s : string) : split s <> [].
Proof.
  destruct s as [|c s]; simpl; [discriminate|].
  destruct (Ascii.eqb c newline); [discriminate|].
  destruct (split s); discriminate.
Qed.

Lemma split_row (s : string) : no_newline s = true -> split s = [s].
Proof.
  induction s as [|c s IH]; simpl; [reflexivity|].
  intros H. apply andb_true_iff in H as [Hc Hs].
  apply negb_true_iff in Hc. rewrite Hc, (IH Hs). reflexivity.
Qed.

Lemma split_rows (s : string) :
  Forall (fun line => no_newline line = true) (split s).
Proof.
  induction s as [|c s IH]; simpl.
  - repeat constructor.
  - destruct (Ascii.eqb c newline) eqn:Ec.
    + constructor; [reflexivity | exact IH].
    + destruct (split s) as [|piece pieces].
      * constructor; [simpl; now rewrite Ec | constructor].
      * inversion IH; subst. constructor; [simpl|assumption].
        now rewrite Ec.
Qed.

Lemma split_app_newline (line rest : string) :
  no_newline line = true ->
  split (line ++ String newline rest) = line :: split rest.
Proof.
  induction line as [|c line IH]; simpl; intros H.
  - reflexivity.
  - apply andb_true_iff in H as [Hc Hl].
    apply negb_true_iff in Hc. rewrite Hc, (IH Hl). reflexivity.
Qed.

Lemma split_join (pieces : list string) :
  pieces <> [] ->
  Forall (fun line => no_newline line = true) pieces ->
  split (join pieces) = pieces.
Proof.
  induction pieces as [|p ps IH]; intros Hne Hall; [congruence|].
  inversion Hall as [|? ? Hp Hps]; subst.
  destruct ps as [|q qs].
  - simpl. now apply split_row.
  - change (join (p :: q :: qs))
      with (p ++ String newline (join (q :: qs))).
    rewrite split_app_newline by assumption.
    rewrite IH by (assumption || discriminate). reflexivity.
Qed.


End PyStrFacts.

(** ** Justification *)

Module JustifyFacts.
Import PyStr PyStrFacts.

Lemma len_justified_line (width : Z) (alignment line : string) :
  len (justified_line width alignment line) = Z.max width (len line).
Proof.
  unfold justified_line.
  destruct (alignment =? "center")%string;
    [|destruct (alignment =? "right")%string];
    auto using len_center, len_rjust, len_ljust.
Qed.

Lemma no_newline_justified_line (width : Z) (alignment line : string) :
  no_newline (justified_line width alignment line) = no_newline line.
Proof.
  unfold justified_line.
  destruct (alignment =? "center")%string;
    [|destruct (alignment =? "right")%string];
    auto using no_newline_center, no_newline_rjust, no_newline_ljust.
Qed.

Lemma justified_line_wide (width : Z) (alignment line : string) :
  width <= len line -> justified_line width alignment line = line.
Proof.
  intros H. unfold justified_line.
  destruct (alignment =? "center")%string;
    [|destruct (alignment =? "right")%string];
    auto using center_wide, rjust_wide, ljust_wide.
Qed.

Lemma justified_line_idempotent (width : Z) (alignment line : string) :
  justified_line width alignment (justified_line width alignment line)
  = justified_line width alignment line.
Proof.
  apply justified_line_wide. rewrite len_justified_line. lia.
Qed.

Lemma justified_rows (width : Z) (alignment : string) (lines : list string) :
  Forall (fun line => no_newline line = true) lines ->
  Forall (fun line => no_newline line = true)
         (map (justified_line width alignment) lines).
Proof.
  induction 1 as [|l ls Hl _ IH]; simpl; constructor; auto.
  now rewrite no_newline_justified_line.
Qed.

(** The lines of the justified text are the justified lines of the text. *)
Lemma split_justified_text (text : string) (width : Z) (alignment : string) :
  split (justified_text text width alignment)
  = map (justified_line width alignment) (split text).
Proof.
  unfold justified_text. cbv zeta. apply split_join.
  - pose proof (split_nonempty text).
    destruct (split text); [congruence | discriminate].
  - apply justified_rows, split_rows.
Qed.

Lemma justified_text_row (row : string) (width : Z) (alignment : string) :
  no_newline row = true ->
  justified_text row width alignment = justified_line width alignment row.
Proof.
  intros H. unfold justified_text. now rewrite (split_row row H).
Qed.




(** *** From the implementations to the calls *)

Lemma fits_ssize_t_spec (n : Z) :
  fits_ssize_t n = true <-> PY_SSIZE_T_MIN <= n <= PY_SSIZE_T_MAX.
Proof.
  unfold fits_ssize_t. rewrite andb_true_iff, !Z.leb_le. tauto.
Qed.

Lemma fits_ssize_t_false (n : Z) :
  fits_ssize_t n = false <-> n < PY_SSIZE_T_MIN \/ PY_SSIZE_T_MAX < n.
Proof.
  unfold fits_ssize_t. rewrite andb_false_iff, !Z.leb_gt. tauto.
Qed.

(** One line: the selected method converts the width and then pads. *)
Lemma justify_line_spec (width : Z) (alignment line : string) :
  justify_line width alignment line
  = if fits_ssize_t width
    then Ok (justified_line width alignment line)
    else Raise ssize_t_overflow.
Proof.
  unfold justify_line, justified_line, center, rjust, ljust, with_ssize_t.
  destruct (alignment =? "center")%string;
    [|destruct (alignment =? "right")%string];
    destruct (fits_ssize_t width); reflexivity.
Qed.

Lemma justify_lines_fits (width : Z) (alignment : string)
      (lines : list string) :
  fits_ssize_t width = true ->
  justify_lines width alignment lines
  = Ok (map (justified_line width alignment) lines).
Proof.
  intros Hfit. induction lines as [|line rest IH]; simpl; [reflexivity|].
  now rewrite justify_line_spec, Hfit, IH.
Qed.

Lemma justify_lines_overflow (width : Z) (alignment : string)
      (lines : list string) :
  fits_ssize_t width = false ->
  lines <> [] ->
  justify_lines width alignment lines = Raise ssize_t_overflow.
Proof.
  intros Hfit Hne. destruct lines as [|line rest]; [congruence|].
  simpl. now rewrite justify_line_spec, Hfit.
Qed.

(** The whole text: [OverflowError] when the width does not convert (the
    loop runs at least once), the padded lines joined when it does. *)
Lemma justify_text_spec (text : string) (width : Z) (alignment : string) :
  justify_text text width alignment
  = if fits_ssize_t width
    then Ok (justified_text text width alignment)
    else Raise ssize_t_overflow.
Proof.
  unfold justify_text, justified_text. cbv zeta.
  destruct (fits_ssize_t width) eqn:Hfit.
  - now rewrite justify_lines_fits.
  - rewrite justify_lines_overflow; auto using split_nonempty.
Qed.

Lemma justify_text_fits (text : string) (width : Z) (alignment : string) :
  fits_ssize_t width = true ->
  justify_text text width alignment
  = Ok (justified_text text width alignment).
Proof. intros H. now rewrite justify_text_spec, H. Qed.

(** *** The claims on justification *)




(** C5: justification is idempotent.  For every text (a single row in
    particular), width and alignment (left, center and right in
    particular): when justification returns, justifying what it returned
    again at the same width and alignment returns it unchanged; and
    justification returns unless the width is outside the range of a C
    ssize_t, where it raises [OverflowError]. *)
Theorem justify_text_idempotent (text : string) (width : Z)
        (alignment : string) :
  match justify_text text width alignment with
  | Ok justified => justify_text justified width alignment = Ok justified
  | Raise e => fits_ssize_t width = false /\ e = ssize_t_overflow
  end.
Proof.
  rewrite justify_text_spec.
  destruct (fits_ssize_t width) eqn:Hfit; [|auto].
  rewrite (justify_text_fits _ _ _ Hfit). f_equal.
  unfold justified_text at 1.
  rewrite split_justified_text, map_map.
  unfold justified_text. f_equal.
  apply map_ext. intros line. apply justified_line_idempotent.
Qed.

(** C6, as stated, fails: a width below -2^63 is smaller than the length
    of every row, and no row comes back: under each of the three modes
    the padding method raises [OverflowError]. *)
Lemma pass_through_raises_below_ssize_t :
  justify_text "banner" (- 2 ^ 70) "left" = Raise ssize_t_overflow
  /\ justify_text "banner" (- 2 ^ 70) "center" = Raise ssize_t_overflow
  /\ justify_text "banner" (- 2 ^ 70) "right" = Raise ssize_t_overflow.
Proof. repeat split. Qed.

(** C6, amended: a row longer than the width, the width being within the
    range of a C ssize_t, is returned unchanged, so with its length
    unchanged, under every alignment: left, center and right (and any
    other value, which is treated as left). *)
Theorem justify_text_pass_through (row : string) (width : Z)
        (mode : string) :
  no_newline row = true ->
  width < len row ->
  PY_SSIZE_T_MIN <= width <= PY_SSIZE_T_MAX ->
  justify_text row width mode = Ok row.
Proof.
  intros Hrow Hlt Hfit. apply fits_ssize_t_spec in Hfit.
  rewrite (justify_text_fits _ _ _ Hfit). f_equal.
  rewrite justified_text_row by assumption.
  apply justified_line_wide. lia.
Qed.

Lemma justify_text_pass_through_witness :
  justify_text "banner" 4 "left" = Ok "banner"
  /\ justify_text "banner" 4 "center" = Ok "banner"
  /\ justify_text "banner" 4 "right" = Ok "banner".
Proof.
  split; [|split].
  - apply (justify_text_pass_through "banner" 4 "left");
      [reflexivity | vm_compute; reflexivity
       | split; vm_compute; discriminate].
  - apply (justify_text_pass_through "banner" 4 "center");
      [reflexivity | vm_compute; reflexivity
       | split; vm_compute; discriminate].
  - apply (justify_text_pass_through "banner" 4 "right");
      [reflexivity | vm_compute; reflexivity
       | split; vm_compute; discriminate].
Defined.



End JustifyFacts.
(** ** The routes *)

Module RouteFacts.
Import PyStr PyStrFacts JustifyFacts.

Section AnyLibrary.

Context {lib : Pyfiglet}.
Variable str_of_exn : exn -> string.

(** A body that pydantic rejects: the handler's [except] turns the
    [ValidationError] into status 500, and the library is not called. *)
Lemma generate_ascii_rejected (b : body) (e : exn) (w : world) :
  FigletRequest_init b = Raise e ->
  generate_ascii str_of_exn b w
  = (Raise (HTTPException 500 (str_of_exn e)), w).
Proof.
  intros H. unfold generate_ascii, try_except, bind, lift.
  now rewrite H.
Qed.

(** A font outside the catalog: the handler raises status 400 inside
    its own [try], the [except] clause catches it and raises status 500
    in its place; the library is not called. *)
Lemma generate_ascii_unknown_font (b : body) (req : FigletRequest)
      (w : world) :
  FigletRequest_init b = Ok req ->
  font_known (font req) getFonts = false ->
  generate_ascii str_of_exn b w
  = (Raise (HTTPException 500
              (str_of_exn
                 (HTTPException 400 (font_not_found_detail getFonts)))),
     w).
Proof.
  intros Hb Hf. unfold generate_ascii, try_except, bind, lift, raise.
  now rewrite Hb, Hf.
Qed.

(** A request with a known font: the library is called once, and the
    outcome follows the library's and that of the justification. *)
Lemma generate_ascii_known_font (b : body) (req : FigletRequest)
      (w : world) :
  FigletRequest_init b = Ok req ->
  font_known (font req) getFonts = true ->
  generate_ascii str_of_exn b w
  = (match figlet_format (text req) (font req) (Width (width req)) with
     | Ok art =>
         match justify_text_opt art (width req) (justify req) with
         | Ok ascii_art =>
             Ok {| ascii_art := ascii_art;
                   font_used := font req;
                   metadata :=
                     RenderMetadata (text req) (width req) (justify req)
                                    (length (split ascii_art)) |}
         | Raise e => Raise (HTTPException 500 (str_of_exn e))
         end
     | Raise e => Raise (HTTPException 500 (str_of_exn e))
     end,
     after_call w (Call (text req) (font req) (Width (width req)))).
Proof.
  intros Hb Hf.
  unfold generate_ascii, try_except, bind, lift, raise, ret,
    call_figlet_format, after_call.
  rewrite Hb, Hf. simpl.
  destruct (figlet_format (text req) (font req) (Width (width req)));
    [|reflexivity].
  destruct (justify_text_opt a (width req) (justify req)); reflexivity.
Qed.

(** Whatever the body, a failure of [generate_ascii] carries status 500. *)
Lemma generate_ascii_failure_status (b : body) (w w' : world) (e : exn) :
  generate_ascii str_of_exn b w = (Raise e, w') ->
  exists detail, e = HTTPException 500 detail.
Proof.
  unfold generate_ascii, try_except, raise.
  destruct (bind _ _ w) as [[r|e0] w0]; intros H; inversion H; eauto.
Qed.

(** C8: the font list response carries the catalog, and its [count]
    is the length of its [fonts]. *)
Theorem list_fonts_count (w : world) :
  exists r : FontListResponse,
    list_fonts w = (Ok r, w)
    /\ fonts r = getFonts
    /\ count r = length (fonts r).
Proof.
  unfold list_fonts, ret. eexists. repeat split.
Qed.

(** Justification at the default width always returns. *)
Lemma justify_text_80 (art alignment : string) :
  justify_text art 80 alignment = Ok (justified_text art 80 alignment).
Proof. apply justify_text_fits. reflexivity. Qed.

(** C2, amended: the empty text is not rejected.  With ["standard"] in
    the catalog, [render("", "standard", 80, "center")] passes
    validation and the empty text is handed to the rendering library;
    when the library returns art the request succeeds with that art
    centered at width 80, and when the library raises it fails with
    status 500. *)
Theorem empty_text_is_rendered :
  font_known "standard" getFonts = true ->
  match figlet_format "" "standard" (Width (Some 80)) with
  | Ok art =>
      exists centered : string,
        justify_text art 80 "center" = Ok centered
        /\ generate_ascii str_of_exn
             (Body (Value "") (Value "standard") (Value 80)
                   (Value "center"))
             initial
           = (Ok {| ascii_art := centered;
                    font_used := "standard";
                    metadata :=
                      RenderMetadata "" (Some 80) (Some "center")
                                     (length (split centered)) |},
              after_call initial (Call "" "standard" (Width (Some 80))))
  | Raise e =>
      generate_ascii str_of_exn
        (Body (Value "") (Value "standard") (Value 80) (Value "center"))
        initial
      = (Raise (HTTPException 500 (str_of_exn e)),
         after_call initial (Call "" "standard" (Width (Some 80))))
  end.
Proof.
  intros Hf.
  rewrite (generate_ascii_known_font _
             {| text := ""; font := "standard"; width := Some 80;
                justify := Some "center" |});
    [|reflexivity|exact Hf].
  cbn [text font width justify justify_text_opt].
  destruct (figlet_format "" "standard" (Width (Some 80))) as [art|e];
    [|reflexivity].
  exists (justified_text art 80 "center").
  rewrite justify_text_80. split; reflexivity.
Qed.



(** [random_art] on any catalog with a font in it and any random source:
    the font of the call comes from the second draw and the font reported
    from the third, whatever the second was. *)
Lemma random_art_draws (random_source : nat -> nat) (f0 : string)
      (fs : list string) (w : world) (art : string) :
  getFonts = f0 :: fs ->
  let pick {A} (n : nat) (seq : list A) (d : A) : A :=
    nth (random_source (drawn w + n) mod length seq)%nat seq d in
  let phrase := pick 0%nat sample_texts "Hello World" in
  let render_font := pick 1%nat (f0 :: fs) f0 in
  figlet_format phrase render_font NoWidth = Ok art ->
  random_art random_source w
  = (Ok {| ascii_art := art;
           font_used := pick 2%nat (f0 :: fs) f0;
           metadata := NoteMetadata "Randomly generated" |},
     {| calls := calls w ++ [Call phrase render_font NoWidth];
        drawn := (drawn w + 3)%nat |}).
Proof.
  intros Hfonts pick phrase render_font Hart.
  unfold random_art, bind, choice, call_figlet_format, ret,
    after_call, after_draw.
  rewrite Hfonts. unfold sample_texts at 1. cbn [calls drawn].
  subst pick phrase render_font. cbv beta in Hart |- *.
  rewrite Nat.add_0_r, Nat.add_1_r in *.
  rewrite Hart.
  replace (drawn w + 2)%nat with (S (S (drawn w))) by lia.
  replace (drawn w + 3)%nat with (S (S (S (drawn w)))) by lia.
  reflexivity.
Qed.

End AnyLibrary.

(** *** The routes on the stand-in library *)

Lemma empty_text_is_rendered_witness :
  exists centered : string,
    justify_text "" 80 "center" = Ok centered
    /\ generate_ascii (lib := Demo.lib) Demo.str
         (Body (Value "") (Value "standard") (Value 80) (Value "center"))
         initial
       = (Ok {| ascii_art := centered;
                font_used := "standard";
                metadata :=
                  RenderMetadata "" (Some 80) (Some "center")
                                 (length (split centered)) |},
          after_call initial (Call "" "standard" (Width (Some 80)))).
Proof.
  exact (empty_text_is_rendered (lib := Demo.lib) Demo.str eq_refl).
Defined.

(** C2, as stated, fails: on a library that returns the empty art for the
    empty text, [render("", "standard", 80, "center")] succeeds, with one
    row of 80 spaces and a line count of 1; no [ValidationError] is
    raised. *)
Lemma empty_text_succeeds :
  generate_ascii (lib := Demo.lib) Demo.str
    (Body (Value "") (Value "standard") (Value 80) (Value "center"))
    initial
  = (Ok {| ascii_art := spaces 80;
           font_used := "standard";
           metadata := RenderMetadata "" (Some 80) (Some "center") 1 |},
     {| calls := [Call "" "standard" (Width (Some 80))];
        drawn := 0 |}).
Proof. vm_compute. reflexivity. Qed.





(** C1: the code at a request whose font is not in the catalog.  The
    handler builds the status 400 error, but raises it inside its own
    [try], whose [except Exception] clause replaces it: the caller gets
    status 500, with the text of the status 400 error as its detail.  The
    library is not called and nothing is returned. *)
Theorem unknown_font_gets_status_500 :
  generate_ascii (lib := Demo.lib) Demo.str
    (Body (Value "Hello") (Value "nosuchfont") Missing Missing) initial
  = (Raise (HTTPException 500
              "HTTP 400: Font not found. Available fonts: ['standard', 'banner', 'slant']... (3 total)"),
     initial).
Proof. vm_compute. reflexivity. Qed.

(** C9: the code at a catalog of three fonts and the draws 0, 1, 2.  The
    phrase is rendered in the font of the second draw, ["banner"], and
    the response reports the font of the third draw, ["slant"]. *)
Theorem random_art_reports_another_font :
  random_art (lib := Demo.lib) Demo.counting initial
  = (Ok {| ascii_art := "HHeelllloo  WWoorrlldd" ++ String newline "";
           font_used := "slant";
           metadata := NoteMetadata "Randomly generated" |},
     {| calls := [Call "Hello World" "banner" NoWidth]; drawn := 3 |}).
Proof. vm_compute. reflexivity. Qed.

End RouteFacts.
(** ** Further properties of [justify_text] *)

Module JustifyMore.
Import PyStr PyStrFacts JustifyFacts.


Lemma sapp_assoc (a b c : string) : (a ++ b) ++ c = a ++ b ++ c.
Proof. induction a as [|x a IH]; simpl; congruence. Qed.









Lemma split_app (s t : string) :
  split (s ++ String newline t) = (split s ++ split t)%list.
Proof.
  induction s as [|c s IH]; simpl.
  - reflexivity.
  - destruct (Ascii.eqb c newline); rewrite IH; [reflexivity|].
    pose proof (split_nonempty s).
    destruct (split s); [congruence | reflexivity].
Qed.

Lemma join_app (ps qs : list string) :
  ps <> [] -> qs <> [] ->
  join (ps ++ qs)%list = join ps ++ String newline (join qs).
Proof.
  intros Hp Hq. induction ps as [|p ps IH]; [congruence|].
  destruct ps as [|p' ps].
  - simpl. destruct qs; [congruence | reflexivity].
  - change (join ((p :: p' :: ps) ++ qs)%list)
      with (p ++ String newline (join ((p' :: ps) ++ qs)%list)).
    rewrite IH by discriminate.
    change (join (p :: p' :: ps))
      with (p ++ String newline (join (p' :: ps))).
    rewrite sapp_assoc. reflexivity.
Qed.

(** X4: justification works line by line.  Justifying two texts joined by
    a line break is justifying the one, then the other, and joining the
    results by a line break (the same exception is raised when one of
    them raises); so the art of the rendering library, which ends in a
    line break, gets one more row of [width] spaces after its last
    line. *)
Theorem justify_text_line_break (s t : string) (width : Z)
        (alignment : string) :
  justify_text (s ++ String newline t) width alignment
  = match justify_text s width alignment with
    | Raise e => Raise e
    | Ok before =>
        match justify_text t width alignment with
        | Raise e => Raise e
        | Ok after => Ok (before ++ String newline after)
        end
    end.
Proof.
  rewrite !justify_text_spec.
  destruct (fits_ssize_t width); [|reflexivity]. f_equal.
  unfold justified_text.
  rewrite split_app, map_app. apply join_app.
  - pose proof (split_nonempty s). destruct (split s); [congruence|discriminate].
  - pose proof (split_nonempty t). destruct (split t); [congruence|discriminate].
Qed.




End JustifyMore.

(** ** Further properties of the routes *)

Module RouteMore.
Import PyStr PyStrFacts JustifyFacts RouteFacts.

Section AnyLibrary.

Context {lib : Pyfiglet}.
Variable str_of_exn : exn -> string.
Variable random_source : nat -> nat.

Lemma font_known_In (name : string) (available : list string) :
  font_known name available = true <-> In name available.
Proof.
  unfold font_known. rewrite existsb_exists. split.
  - intros (x & Hx & E). apply String.eqb_eq in E. now subst.
  - intros H. exists name. split; [assumption | apply String.eqb_refl].
Qed.


(** X8: the handler calls the rendering library once when the body
    validates and its font is in the catalog, and not at all otherwise;
    it takes no random draw. *)
Theorem generate_ascii_library_calls (b : body) (w : world) :
  snd (generate_ascii str_of_exn b w)
  = match FigletRequest_init b with
    | Ok req =>
        if font_known (font req) getFonts
        then after_call w (Call (text req) (font req) (Width (width req)))
        else w
    | Raise _ => w
    end.
Proof.
  destruct (FigletRequest_init b) as [req|e0] eqn:Hb.
  - destruct (font_known (font req) getFonts) eqn:Hf.
    + now rewrite (generate_ascii_known_font _ b req w Hb Hf).
    + now rewrite (generate_ascii_unknown_font _ b req w Hb Hf).
  - now rewrite (generate_ascii_rejected _ b e0 w Hb).
Qed.

(** X9: what a successful response of [generate_ascii] tells.  The body
    validated with an integer width, the font is in the catalog and is the
    [font_used], the library returned art for exactly the request's text,
    font and width, the metadata echoes the request, the rows are as many
    as the lines of the library's art and [line_count] says so, and every
    row is at least [width] long. *)
Theorem generate_ascii_success (b : body) (w w' : world)
        (resp : FigletResponse) :
  generate_ascii str_of_exn b w = (Ok resp, w') ->
  exists (req : FigletRequest) (wd : Z) (art : string),
    FigletRequest_init b = Ok req
    /\ In (font req) getFonts
    /\ width req = Some wd
    /\ figlet_format (text req) (font req) (Width (Some wd)) = Ok art
    /\ w' = after_call w (Call (text req) (font req) (Width (Some wd)))
    /\ font_used resp = font req
    /\ metadata resp
       = RenderMetadata (text req) (Some wd) (justify req)
                        (length (split art))
    /\ length (rows resp) = length (split art)
    /\ Forall (fun row => wd <= len row) (rows resp).
Proof.
  destruct (FigletRequest_init b) as [req|e0] eqn:Hb.
  2:{ rewrite (generate_ascii_rejected _ b e0 w Hb). discriminate. }
  destruct (font_known (font req) getFonts) eqn:Hf.
  2:{ rewrite (generate_ascii_unknown_font _ b req w Hb Hf). discriminate. }
  rewrite (generate_ascii_known_font _ b req w Hb Hf).
  destruct (figlet_format (text req) (font req) (Width (width req)))
    as [art|e1] eqn:Hlib; [|discriminate].
  destruct (width req) as [wd|] eqn:Hw; cbn [justify_text_opt];
    [|discriminate].
  assert (Hrows : forall a,
             length (split (justified_text art wd a)) = length (split art)
             /\ Forall (fun row => wd <= len row)
                       (split (justified_text art wd a))).
  { intros a. rewrite split_justified_text. split; [apply length_map|].
    apply Forall_forall. intros row Hin.
    apply in_map_iff in Hin as (line & <- & _).
    rewrite len_justified_line. lia. }
  assert (Hj : forall a,
             justify_text art wd a
             = if fits_ssize_t wd
               then Ok (justified_text art wd a)
               else Raise ssize_t_overflow)
    by (intros a; apply justify_text_spec).
  intros H. exists req, wd, art.
  apply font_known_In in Hf.
  destruct (fits_ssize_t wd);
    destruct (justify req) as [j|] eqn:Hjust; rewrite Hj in H;
    try discriminate H; inversion H; subst; clear H;
    unfold rows; cbn [ascii_art font_used metadata];
    [destruct (Hrows j) as [Hn Hall] | destruct (Hrows "left") as [Hn Hall]];
    rewrite Hn; repeat split; auto.
Qed.

(** X10: absent keys take the defaults of the model.  A body that carries
    only [text] is handled exactly as the body that spells out the font
    "standard", the width 80 and the alignment "center". *)
Theorem generate_ascii_defaults (t : field string) (w : world) :
  generate_ascii str_of_exn (Body t Missing Missing Missing) w
  = generate_ascii str_of_exn
      (Body t (Value "standard") (Value 80) (Value "center")) w.
Proof.
  unfold generate_ascii, try_except, bind, lift.
  replace (FigletRequest_init (Body t Missing Missing Missing))
    with (FigletRequest_init
            (Body t (Value "standard") (Value 80) (Value "center")))
    by (destruct t; reflexivity).
  reflexivity.
Qed.

(** X11: a [null] width passes validation and then always fails.  With a
    known font the library is called with the width [None]; if it raises,
    that is the failure, and if it returns art, justifying at the width
    [None] raises [TypeError]: either way the caller gets status 500. *)
Theorem generate_ascii_null_width (b : body) (req : FigletRequest)
        (w : world) :
  FigletRequest_init b = Ok req ->
  width req = None ->
  font_known (font req) getFonts = true ->
  exists detail : string,
    generate_ascii str_of_exn b w
    = (Raise (HTTPException 500 detail),
       after_call w (Call (text req) (font req) (Width None))).
Proof.
  intros Hb Hw Hf.
  rewrite (generate_ascii_known_font _ b req w Hb Hf), Hw.
  cbn [justify_text_opt].
  destruct (figlet_format (text req) (font req) (Width None));
    eexists; reflexivity.
Qed.

(** X12: a [null] alignment is justified as left.  With a known font and
    art from the library, the outcome is that of
    [justify_text(art, width, "left")]: when it returns, the request
    succeeds with the art left justified and the metadata reports the
    alignment as [null]; when it raises (a width outside the range of a C
    ssize_t), the request fails with status 500. *)
Theorem generate_ascii_null_justify (t f : string) (wd : Z) (art : string)
        (w : world) :
  font_known f getFonts = true ->
  figlet_format t f (Width (Some wd)) = Ok art ->
  generate_ascii str_of_exn (Body (Value t) (Value f) (Value wd) Null) w
  = (match justify_text art wd "left" with
     | Ok ascii_art =>
         Ok {| ascii_art := ascii_art;
               font_used := f;
               metadata :=
                 RenderMetadata t (Some wd) None
                                (length (split ascii_art)) |}
     | Raise e => Raise (HTTPException 500 (str_of_exn e))
     end,
     after_call w (Call t f (Width (Some wd)))).
Proof.
  intros Hf Hlib.
  rewrite (generate_ascii_known_font _ _
             {| text := t; font := f; width := Some wd; justify := None |});
    [|reflexivity|exact Hf].
  cbn [text font width justify justify_text_opt]. rewrite Hlib.
  destruct (justify_text art wd "left"); reflexivity.
Qed.

(** X13: a body without a usable [text] (the key absent, [null] or not a
    string) is refused with status 500, the detail being the text of a
    validation error whose first field is "text"; the library is not
    called. *)
Theorem generate_ascii_missing_text (b : body) (w : world) :
  required (body_text b) = None ->
  exists fields : list string,
    generate_ascii str_of_exn b w
    = (Raise (HTTPException 500
                (str_of_exn (ValidationError ("text" :: fields)))),
       w).
Proof.
  intros Ht. eexists. apply generate_ascii_rejected.
  unfold FigletRequest_init. rewrite Ht. reflexivity.
Qed.

Lemma pick_In {A} (n : nat) (x : A) (xs : list A) :
  In (nth (n mod length (x :: xs))%nat (x :: xs) x) (x :: xs).
Proof.
  apply nth_In. apply Nat.mod_upper_bound. discriminate.
Qed.

(** [random_art] on a catalog with a font in it, step by step. *)
Lemma random_art_run (f0 : string) (fs : list string) (w : world) :
  getFonts = f0 :: fs ->
  random_art random_source w
  = match
      figlet_format
        (nth (random_source (drawn w) mod length sample_texts)%nat
             sample_texts "Hello World")
        (nth (random_source (S (drawn w)) mod length (f0 :: fs))%nat
             (f0 :: fs) f0)
        NoWidth
    with
    | Ok art =>
        (Ok {| ascii_art := art;
               font_used :=
                 nth (random_source (S (S (drawn w)))
                      mod length (f0 :: fs))%nat (f0 :: fs) f0;
               metadata := NoteMetadata "Randomly generated" |},
         {| calls :=
              calls w
              ++ [Call
                    (nth (random_source (drawn w)
                          mod length sample_texts)%nat
                         sample_texts "Hello World")
                    (nth (random_source (S (drawn w))
                          mod length (f0 :: fs))%nat (f0 :: fs) f0)
                    NoWidth];
            drawn := S (S (S (drawn w))) |})
    | Raise e =>
        (Raise e,
         {| calls :=
              calls w
              ++ [Call
                    (nth (random_source (drawn w)
                          mod length sample_texts)%nat
                         sample_texts "Hello World")
                    (nth (random_source (S (drawn w))
                          mod length (f0 :: fs))%nat (f0 :: fs) f0)
                    NoWidth];
            drawn := S (S (drawn w)) |})
    end.
Proof.
  intros Hfonts.
  unfold random_art, bind, choice, call_figlet_format, ret,
    after_call, after_draw.
  rewrite Hfonts. unfold sample_texts at 1. cbn [calls drawn].
  match goal with
  | |- context [figlet_format ?p ?f NoWidth] =>
      destruct (figlet_format p f NoWidth)
  end; reflexivity.
Qed.

Lemma sample_pick_In (n : nat) :
  In (nth (n mod length sample_texts)%nat sample_texts "Hello World")
     sample_texts.
Proof. apply (pick_In n "Hello World"). Qed.

(** X14: with an empty catalog [random_art] fails with the [IndexError]
    of [random.choice]; no handler turns it into an HTTP error.  The
    phrase has been drawn by then, and the library is not called. *)
Theorem random_art_empty_catalog (w : world) :
  getFonts = [] ->
  random_art random_source w
  = (Raise (IndexError "Cannot choose from an empty sequence"),
     after_draw w).
Proof.
  intros Hfonts. unfold random_art, bind, choice. rewrite Hfonts.
  reflexivity.
Qed.

(** X15: [random_art] has no [try]: an exception of the rendering library
    reaches the caller as it is, after two draws and the one call; the
    third draw is not taken. *)
Theorem random_art_library_failure (w w' : world) (e : exn) :
  random_art random_source w = (Raise e, w') ->
  getFonts <> [] ->
  drawn w' = (drawn w + 2)%nat
  /\ exists c : call,
       calls w' = (calls w ++ [c])%list
       /\ figlet_format (call_text c) (call_font c) (call_width c) = Raise e.
Proof.
  intros H Hne.
  destruct getFonts as [|f0 fs] eqn:Hfonts; [congruence|].
  rewrite (random_art_run f0 fs w Hfonts) in H.
  match type of H with
  | context [figlet_format ?p ?f NoWidth] =>
      destruct (figlet_format p f NoWidth) as [art|e1] eqn:Hlib
  end; [discriminate H|].
  injection H as He Hw. subst e1 w'. cbn [drawn calls].
  split; [lia|]. eexists. split; [reflexivity|]. exact Hlib.
Qed.

(** X16: what a successful response of [random_art] tells.  The phrase is
    one of the five samples, the font of the call and the font reported are
    both fonts of the catalog, the library was called once with no width,
    the art is what it returned, unjustified, the metadata is the fixed
    note, and three draws were taken. *)
Theorem random_art_success (w w' : world) (resp : FigletResponse) :
  random_art random_source w = (Ok resp, w') ->
  In (font_used resp) getFonts
  /\ metadata resp = NoteMetadata "Randomly generated"
  /\ drawn w' = (drawn w + 3)%nat
  /\ exists c : call,
       calls w' = (calls w ++ [c])%list
       /\ In (call_text c) sample_texts
       /\ In (call_font c) getFonts
       /\ call_width c = NoWidth
       /\ figlet_format (call_text c) (call_font c) NoWidth
          = Ok (ascii_art resp).
Proof.
  intros H.
  destruct getFonts as [|f0 fs] eqn:Hfonts.
  { unfold random_art, bind, choice in H. rewrite Hfonts in H.
    discriminate H. }
  rewrite (random_art_run f0 fs w Hfonts) in H.
  match type of H with
  | context [figlet_format ?p ?f NoWidth] =>
      destruct (figlet_format p f NoWidth) as [art|e1] eqn:Hlib
  end; [|discriminate H].
  injection H as Hresp Hw. subst resp w'.
  cbn [font_used metadata ascii_art calls drawn].
  split; [apply pick_In|]. split; [reflexivity|]. split; [lia|].
  eexists. split; [reflexivity|].
  cbn [call_text call_font call_width].
  split; [apply sample_pick_In|]. split; [apply pick_In|].
  split; [reflexivity | exact Hlib].
Qed.

(** A successful [random_art] took both of its fonts from the catalog. *)
Lemma random_art_success_fonts (w w' : world) (resp : FigletResponse) :
  random_art random_source w = (Ok resp, w') ->
  In (font_used resp) getFonts
  /\ exists c : call,
       calls w' = (calls w ++ [c])%list /\ In (call_font c) getFonts.
Proof.
  intros H.
  destruct getFonts as [|f0 fs] eqn:Hfonts.
  { unfold random_art, bind, choice in H. rewrite Hfonts in H.
    discriminate H. }
  rewrite (random_art_run f0 fs w Hfonts) in H.
  match type of H with
  | context [figlet_format ?p ?f NoWidth] =>
      destruct (figlet_format p f NoWidth) as [art|e1] eqn:Hlib
  end; [|discriminate H].
  injection H as Hresp Hw. subst resp w'.
  cbn [font_used calls].
  split; [apply pick_In|].
  eexists. split; [reflexivity|]. apply pick_In.
Qed.

(** X17: with exactly one font in the catalog the two font draws cannot
    differ: the font reported is the font of the call. *)
Theorem random_art_single_font (f : string) (w w' : world)
        (resp : FigletResponse) :
  getFonts = [f] ->
  random_art random_source w = (Ok resp, w') ->
  font_used resp = f
  /\ exists c : call, calls w' = (calls w ++ [c])%list /\ call_font c = f.
Proof.
  intros Hfonts H.
  destruct (random_art_success_fonts w w' resp H) as (Hu & c & Hc & Hf).
  rewrite Hfonts in Hu, Hf.
  destruct Hu as [Hu|[]]. destruct Hf as [Hf|[]].
  split; [congruence|]. exists c. split; [assumption | congruence].
Qed.

End AnyLibrary.

(** *** The further properties at concrete requests *)


Lemma generate_ascii_success_witness :
  exists (req : FigletRequest) (wd : Z) (art : string),
    FigletRequest_init (Body (Value "Hi") (Value "standard") (Value 80)
                             (Value "right"))
    = Ok req
    /\ In (font req) (getFonts (Pyfiglet := Demo.lib))
    /\ width req = Some wd
    /\ figlet_format (Pyfiglet := Demo.lib)
         (text req) (font req) (Width (Some wd))
       = Ok art
    /\ after_call initial (Call "Hi" "standard" (Width (Some 80)))
       = after_call initial (Call (text req) (font req) (Width (Some wd)))
    /\ "standard" = font req
    /\ RenderMetadata "Hi" (Some 80) (Some "right") 2
       = RenderMetadata (text req) (Some wd) (justify req)
                        (length (split art))
    /\ length (split ((spaces 76 ++ "HHii") ++ String newline (spaces 80)))
       = length (split art)
    /\ Forall (fun row => wd <= len row)
              (split ((spaces 76 ++ "HHii") ++ String newline (spaces 80))).
Proof.
  exact (generate_ascii_success (lib := Demo.lib) Demo.str
           (Body (Value "Hi") (Value "standard") (Value 80) (Value "right"))
           initial
           (after_call initial (Call "Hi" "standard" (Width (Some 80))))
           {| ascii_art :=
                (spaces 76 ++ "HHii") ++ String newline (spaces 80);
              font_used := "standard";
              metadata := RenderMetadata "Hi" (Some 80) (Some "right") 2 |}
           eq_refl).
Defined.

Lemma generate_ascii_null_width_witness :
  exists detail : string,
    generate_ascii (lib := Demo.lib) Demo.str
      (Body (Value "Hi") (Value "standard") Null Missing) initial
    = (Raise (HTTPException 500 detail),
       after_call initial (Call "Hi" "standard" (Width None))).
Proof.
  exact (generate_ascii_null_width (lib := Demo.lib) Demo.str
           (Body (Value "Hi") (Value "standard") Null Missing)
           {| text := "Hi"; font := "standard"; width := None;
              justify := Some "center" |}
           initial eq_refl eq_refl eq_refl).
Defined.

Lemma generate_ascii_null_justify_witness :
  generate_ascii (lib := Demo.lib) Demo.str
    (Body (Value "Hi") (Value "standard") (Value 80) Null) initial
  = (Ok {| ascii_art :=
             ("HHii" ++ spaces 76) ++ String newline (spaces 80);
           font_used := "standard";
           metadata := RenderMetadata "Hi" (Some 80) None 2 |},
     after_call initial (Call "Hi" "standard" (Width (Some 80)))).
Proof.
  exact (generate_ascii_null_justify (lib := Demo.lib) Demo.str
           "Hi" "standard" 80 ("HHii" ++ String newline "") initial
           eq_refl eq_refl).
Defined.

Lemma generate_ascii_missing_text_witness :
  exists fields : list string,
    generate_ascii (lib := Demo.lib) Demo.str
      (Body Null (Value "banner") Missing Missing) initial
    = (Raise (HTTPException 500
                (Demo.str (ValidationError ("text" :: fields)))),
       initial).
Proof.
  exact (generate_ascii_missing_text (lib := Demo.lib) Demo.str
           (Body Null (Value "banner") Missing Missing) initial eq_refl).
Defined.

Lemma random_art_empty_catalog_witness :
  random_art (lib := Build_Pyfiglet [] Demo.format) Demo.counting initial
  = (Raise (IndexError "Cannot choose from an empty sequence"),
     after_draw initial).
Proof.
  exact (random_art_empty_catalog
           (lib := Build_Pyfiglet [] Demo.format) Demo.counting initial
           eq_refl).
Defined.

Lemma random_art_library_failure_witness :
  drawn {| calls := [Call "Hello World" "standard" NoWidth];
           drawn := 2 |}
  = (drawn initial + 2)%nat
  /\ exists c : call,
       calls {| calls := [Call "Hello World" "standard" NoWidth];
                drawn := 2 |}
       = (calls initial ++ [c])%list
       /\ figlet_format
            (Pyfiglet :=
               Build_Pyfiglet ["standard"]
                 (fun _ _ _ => Raise (LibraryError "no glyphs")))
            (call_text c) (call_font c) (call_width c)
          = Raise (LibraryError "no glyphs").
Proof.
  refine (random_art_library_failure
            (lib := Build_Pyfiglet ["standard"]
                      (fun _ _ _ => Raise (LibraryError "no glyphs")))
            Demo.counting initial
            {| calls := [Call "Hello World" "standard" NoWidth];
               drawn := 2 |}
            (LibraryError "no glyphs") eq_refl _).
  discriminate.
Defined.

Lemma random_art_success_witness :
  In "slant" (getFonts (Pyfiglet := Demo.lib))
  /\ NoteMetadata "Randomly generated" = NoteMetadata "Randomly generated"
  /\ 3%nat = (drawn initial + 3)%nat
  /\ exists c : call,
       [Call "Hello World" "banner" NoWidth] = (calls initial ++ [c])%list
       /\ In (call_text c) sample_texts
       /\ In (call_font c) (getFonts (Pyfiglet := Demo.lib))
       /\ call_width c = NoWidth
       /\ figlet_format (Pyfiglet := Demo.lib)
            (call_text c) (call_font c) NoWidth
          = Ok ("HHeelllloo  WWoorrlldd" ++ String newline "").
Proof.
  exact (random_art_success (lib := Demo.lib) Demo.counting initial
           {| calls := [Call "Hello World" "banner" NoWidth]; drawn := 3 |}
           {| ascii_art := "HHeelllloo  WWoorrlldd" ++ String newline "";
              font_used := "slant";
              metadata := NoteMetadata "Randomly generated" |}
           eq_refl).
Defined.

Lemma random_art_single_font_witness :
  "standard" = "standard"
  /\ exists c : call,
       [Call "Hello World" "standard" NoWidth] = (calls initial ++ [c])%list
       /\ call_font c = "standard".
Proof.
  exact (random_art_single_font
           (lib := Build_Pyfiglet ["standard"] Demo.format)
           Demo.counting "standard" initial
           {| calls := [Call "Hello World" "standard" NoWidth];
              drawn := 3 |}
           {| ascii_art := "HHeelllloo  WWoorrlldd" ++ String newline "";
              font_used := "standard";
              metadata := NoteMetadata "Randomly generated" |}
           eq_refl eq_refl).
Defined.

End RouteMore.
